(** * api-backend: a shallow embedding of [main.py]

    The service is one Python module.  Its module-level statements run
    once when the process starts (reading the environment, creating the
    log directory, configuring logging, tracing and the CORS layer,
    registering two routes); afterwards the two handlers [health_check]
    and [version] run once per routed request.

    The embedding follows that shape: [startup] is the module body in an
    exception monad over the outcomes of the operating-system calls it
    makes, [proc] is the state of the started process, and [step] runs
    one event of the process lifetime.

    Python strings are modelled by their bytes in the file-system
    encoding (UTF-8 with [surrogateescape]), the form in which the
    values of the environment reach the program: a byte string that is
    not valid UTF-8 stands for a [str] with lone surrogates, which the
    strict UTF-8 encoder of the JSON response refuses. *)

From Stdlib Require Import Ascii String ZArith NArith DecimalString.
From stdpp Require Import base option list strings gmap.

Local Open Scope string_scope.
Local Open Scope Z_scope.

(** ** Python values and primitives used by the module *)

Module Py.

(** The values the handlers return: dicts from strings to strings,
    in insertion order.  The framework sends such a dict as the JSON
    object with the same members. *)
Definition dict : Type := list (string * string).

(** [os.getenv(key, default)]: the value when the variable is set
    (also when it is set to the empty string), the default otherwise. *)
Definition getenv (environ : gmap string string) (key default : string) : string :=
  match environ !! key with
  | Some v => v
  | None => default
  end.

(** Exceptions raised by the file-system calls of the module body. *)
Inductive exn : Type :=
| OSError (errno : Z).

(** Outcome of a statement that may raise. *)
Inductive result (A : Type) : Type :=
| Ok (a : A)
| Raise (e : exn).
Arguments Ok {A} a.
Arguments Raise {A} e.

#[export] Instance result_bind : MBind result := fun A B k c =>
  match c with
  | Ok a => k a
  | Raise e => Raise e
  end.

(** *** [pathlib] paths (POSIX flavour) *)

Fixpoint split_on (sep : ascii) (s cur : string) : list string :=
  match s with
  | EmptyString => [cur]
  | String c rest =>
      if decide (c = sep) then cur :: split_on sep rest ""
      else split_on sep rest (cur +:+ String c "")
  end.

(** The number of leading separators. *)
Fixpoint leading (sep : ascii) (s : string) : nat :=
  match s with
  | String c rest => if decide (c = sep) then S (leading sep rest) else O
  | EmptyString => O
  end.

(** The components of a path string: empty components and ["."] are
    dropped, [".."] is kept. *)
Definition components (s : string) : list string :=
  filter (fun c => c <> "" /\ c <> ".") (split_on "/" s "").

(** A parsed path: its root (none, ["/"], or ["//"] for exactly two
    leading slashes) and its components. *)
Record PurePath : Type := { pp_root : string; pp_parts : list string }.

(** [Path(s)]. *)
Definition Path (s : string) : PurePath :=
  {| pp_root := match leading "/" s with O => "" | 2%nat => "//" | _ => "/" end;
     pp_parts := components s |}.

Fixpoint join_parts (l : list string) : string :=
  match l with
  | [] => ""
  | [x] => x
  | x :: l' => x +:+ "/" +:+ join_parts l'
  end.

(** [str(p)]: the empty relative path is ["."]. *)
Definition fspath (p : PurePath) : string :=
  match pp_root p, pp_parts p with
  | EmptyString, [] => "."
  | r, l => r +:+ join_parts l
  end.

(** [p / key]: an absolute [key] replaces [p]. *)
Definition truediv (p : PurePath) (key : string) : PurePath :=
  match leading "/" key with
  | O => {| pp_root := pp_root p; pp_parts := (pp_parts p ++ components key)%list |}
  | S _ => Path key
  end.

(** [str(Path(dir) / name)]. *)
Definition path_join (dir name : string) : string := fspath (truediv (Path dir) name).

(** *** Strict UTF-8 encoding *)

(** The decoder state: at a character boundary, or inside a character
    with [more] bytes to come after the next one, which must lie in
    [lo..hi]. *)
Inductive utf8_state : Type :=
| Start
| Cont (more : nat) (lo hi : N).

Definition in_range (lo hi b : N) : bool := (lo <=? b)%N && (b <=? hi)%N.

(** The state after a lead byte; [None] for a byte that cannot start a
    character.  Over-long forms, surrogates and code points above
    U+10FFFF are excluded by the range of the second byte. *)
Definition utf8_lead (b : N) : option utf8_state :=
  if (b <? 128)%N then Some Start
  else if in_range 194 223 b then Some (Cont 0 128 191)
  else if (b =? 224)%N then Some (Cont 1 160 191)
  else if in_range 225 236 b then Some (Cont 1 128 191)
  else if (b =? 237)%N then Some (Cont 1 128 159)
  else if in_range 238 239 b then Some (Cont 1 128 191)
  else if (b =? 240)%N then Some (Cont 2 144 191)
  else if in_range 241 243 b then Some (Cont 2 128 191)
  else if (b =? 244)%N then Some (Cont 2 128 143)
  else None.

Fixpoint utf8_from (st : utf8_state) (s : string) : bool :=
  match s with
  | EmptyString => match st with Start => true | Cont _ _ _ => false end
  | String c rest =>
      let b := N_of_ascii c in
      match st with
      | Start =>
          match utf8_lead b with
          | Some st' => utf8_from st' rest
          | None => false
          end
      | Cont more lo hi =>
          if in_range lo hi b then
            match more with
            | O => utf8_from Start rest
            | S more' => utf8_from (Cont more' 128 191) rest
            end
          else false
      end
  end.

(** Whether [s.encode("utf-8")] succeeds: the bytes are well-formed
    UTF-8, that is, the [str] they stand for has no lone surrogate. *)
Definition utf8_valid (s : string) : bool := utf8_from Start s.

(** [needle in hay] on strings. *)
Fixpoint contains (needle hay : string) : bool :=
  String.prefix needle hay ||
  match hay with
  | EmptyString => false
  | String _ rest => contains needle rest
  end.

End Py.

Import Py.

(** ** The part of the standard [logging] package the module drives *)

Module Logging.

Definition NOTSET : Z := 0.
Definition DEBUG : Z := 10.
Definition INFO : Z := 20.
Definition WARNING : Z := 30.
Definition ERROR : Z := 40.
Definition CRITICAL : Z := 50.

(** [logging.getLevelName(level)]: the registered name, or
    ["Level %s" % level]. *)
Definition getLevelName (level : Z) : string :=
  if decide (level = CRITICAL) then "CRITICAL"
  else if decide (level = ERROR) then "ERROR"
  else if decide (level = WARNING) then "WARNING"
  else if decide (level = INFO) then "INFO"
  else if decide (level = DEBUG) then "DEBUG"
  else if decide (level = NOTSET) then "NOTSET"
  else "Level " +:+ NilZero.string_of_int (Z.to_int level).

(** A log record: the attributes a format string can name.  [extra]
    holds the keyword dictionary passed as [extra=...], which the
    package stores as further attributes of the record. *)
Record LogRecord : Type := {
  rec_name : string;
  rec_levelno : Z;
  rec_msg : string;
  rec_asctime : string;
  rec_extra : list (string * string)
}.

Fixpoint assoc (k : string) (l : list (string * string)) : option string :=
  match l with
  | [] => None
  | (k', v) :: l' => if decide (k = k') then Some v else assoc k l'
  end.

(** Attribute lookup in the record's dictionary while it is formatted.
    The message has no arguments here, so [message] is [msg].  The
    attributes that locate the call (file, line, thread, ...) are not
    modelled; the module's format does not name them. *)
Definition record_attr (r : LogRecord) (attr : string) : option string :=
  if decide (attr = "asctime") then Some (rec_asctime r)
  else if decide (attr = "levelname") then Some (getLevelName (rec_levelno r))
  else if decide (attr = "message") then Some (rec_msg r)
  else if decide (attr = "msg") then Some (rec_msg r)
  else if decide (attr = "name") then Some (rec_name r)
  else if decide (attr = "levelno")
       then Some (NilZero.string_of_int (Z.to_int (rec_levelno r)))
  else assoc attr (rec_extra r).

(** *** %-style format strings: literal text and [%(attr)s] fields

    The subset the module uses.  [Formatter] also insists on at least
    one field, which the module's format and the default one have. *)

Inductive token : Type :=
| Lit (text : string)
| Attr (attr : string).

Inductive mode : Type :=
| InLit (acc : string)
| AfterPercent (acc : string)
| InName (acc : string)
| AfterName (attr : string).

Definition snoc (s : string) (c : ascii) : string := s +:+ String c EmptyString.

(** [None] stands for the [ValueError] of a malformed format. *)
Fixpoint tokenize (m : mode) (fmt : string) : option (list token) :=
  match fmt with
  | EmptyString =>
      match m with
      | InLit acc => Some [Lit acc]
      | _ => None
      end
  | String c rest =>
      match m with
      | InLit acc =>
          if decide (c = "%"%char) then tokenize (AfterPercent acc) rest
          else tokenize (InLit (snoc acc c)) rest
      | AfterPercent acc =>
          if decide (c = "("%char) then cons (Lit acc) <$> tokenize (InName "") rest
          else if decide (c = "%"%char) then tokenize (InLit (snoc acc c)) rest
          else None
      | InName acc =>
          if decide (c = ")"%char) then tokenize (AfterName acc) rest
          else tokenize (InName (snoc acc c)) rest
      | AfterName attr =>
          if decide (c = "s"%char) then cons (Attr attr) <$> tokenize (InLit "") rest
          else None
      end
  end.

(** [None] stands for the [KeyError] of a field the record lacks. *)
Fixpoint render (ts : list token) (r : LogRecord) : option string :=
  match ts with
  | [] => Some ""
  | Lit text :: ts' => String.append text <$> render ts' r
  | Attr attr :: ts' =>
      match record_attr r attr with
      | Some v => String.append v <$> render ts' r
      | None => None
      end
  end.

(** [Formatter(fmt).format(record)]. *)
Definition format (fmt : string) (r : LogRecord) : option string :=
  match tokenize (InLit "") fmt with
  | Some ts => render ts r
  | None => None
  end.

(** *** Handlers and the two sinks *)

Inductive stream : Type :=
| Stderr
| FileStream (path : string).

Record Handler : Type := {
  h_stream : stream;
  h_level : Z;
  h_formatter : option string
}.

(** [logging.StreamHandler()]: writes to the standard error stream. *)
Definition StreamHandler : Handler :=
  {| h_stream := Stderr; h_level := NOTSET; h_formatter := None |}.

(** What has been written so far: the console stream and the files,
    each as its lines in order. *)
Record sinks : Type := {
  console : list string;
  files : gmap string (list string)
}.

Definition write_line (s : stream) (line : string) (out : sinks) : sinks :=
  match s with
  | Stderr => {| console := (console out ++ [line])%list; files := files out |}
  | FileStream path =>
      {| console := console out;
         files := <[path := (default [] (files out !! path) ++ [line])%list]> (files out) |}
  end.

(** The formatter of a handler that has none set is the package's
    default one. *)
Definition default_format : string := "%(message)s".

(** [Handler.handle(record)]: format and write one line; a formatting
    error is reported by the package and the record is dropped. *)
Definition handle (h : Handler) (r : LogRecord) (out : sinks) : sinks :=
  match format (default default_format (h_formatter h)) r with
  | Some line => write_line (h_stream h) line out
  | None => out
  end.

(** *** Loggers *)

Record Logger : Type := {
  lg_name : string;
  lg_level : Z;
  lg_handlers : list Handler;
  lg_propagate : bool
}.

(** The root logger of a fresh interpreter. *)
Definition root0 : Logger :=
  {| lg_name := "root"; lg_level := WARNING; lg_handlers := []; lg_propagate := true |}.

(** [logging.getLogger(name)] for a name not seen before. *)
Definition getLogger (name : string) : Logger :=
  {| lg_name := name; lg_level := NOTSET; lg_handlers := []; lg_propagate := true |}.

(** [logging.basicConfig(level=, format=, handlers=)]: does nothing
    when the root logger already has handlers. *)
Definition basicConfig (level : Z) (fmt : string) (handlers : list Handler)
    (root : Logger) : Logger :=
  match lg_handlers root with
  | [] =>
      let set_formatter h :=
        match h_formatter h with
        | None => {| h_stream := h_stream h; h_level := h_level h; h_formatter := Some fmt |}
        | Some _ => h
        end in
      {| lg_name := lg_name root; lg_level := level;
         lg_handlers := set_formatter <$> handlers;
         lg_propagate := lg_propagate root |}
  | _ :: _ => root
  end.

(** [Logger.getEffectiveLevel()] along the chain logger, parent, ...,
    root: the first level that is set. *)
Fixpoint getEffectiveLevel (chain : list Logger) : Z :=
  match chain with
  | [] => NOTSET
  | lg :: parents =>
      if decide (lg_level lg = NOTSET) then getEffectiveLevel parents else lg_level lg
  end.

(** The handler of last resort: warnings and above go to the standard
    error stream when no handler at all is found. *)
Definition lastResort : Handler :=
  {| h_stream := Stderr; h_level := WARNING; h_formatter := None |}.

(** The loop of [Logger.callHandlers(record)]: the handlers of the
    logger and of its ancestors, as long as the loggers propagate;
    [found] counts the handlers met. *)
Fixpoint call_chain (chain : list Logger) (r : LogRecord) (found : nat)
    (out : sinks) : nat * sinks :=
  match chain with
  | [] => (found, out)
  | lg :: parents =>
      let out' :=
        foldl (fun o h => if decide (h_level h <= rec_levelno r) then handle h r o else o)
              out (lg_handlers lg) in
      let found' := (found + length (lg_handlers lg))%nat in
      if lg_propagate lg then call_chain parents r found' out' else (found', out')
  end.

(** [Logger.callHandlers(record)]. *)
Definition callHandlers (chain : list Logger) (r : LogRecord) (out : sinks) : sinks :=
  let '(found, out') := call_chain chain r 0%nat out in
  match found with
  | O => if decide (h_level lastResort <= rec_levelno r)
         then handle lastResort r out' else out'
  | S _ => out'
  end.

(** [Logger.log(level, msg, extra=extra)] on the first logger of the
    chain, at the time [asctime]. *)
Definition log (chain : list Logger) (level : Z) (msg : string)
    (extra : list (string * string)) (asctime : string) (out : sinks) : sinks :=
  match chain with
  | [] => out
  | lg :: _ =>
      if decide (getEffectiveLevel chain <= level) then
        callHandlers chain
          {| rec_name := lg_name lg; rec_levelno := level; rec_msg := msg;
             rec_asctime := asctime; rec_extra := extra |} out
      else out
  end.

(** [Logger.info(msg, extra=extra)]. *)
Definition info (chain : list Logger) (msg : string)
    (extra : list (string * string)) (asctime : string) (out : sinks) : sinks :=
  log chain INFO msg extra asctime out.

End Logging.

(** ** Requests, responses and the route table of the web framework *)

Module Http.

Inductive method : Type :=
| GET | HEAD | POST | PUT | PATCH | DELETE | OPTIONS.

#[export] Instance method_eq_dec : EqDecision method.
Proof. solve_decision. Defined.

Record request : Type := {
  req_method : method;
  req_path : string;
  req_query : list (string * string);
  req_headers : list (string * string)
}.

(** What a route hands to the response class: the route's status code
    and the value the path operation returned. *)
Record response : Type := {
  status_code : Z;
  body : dict
}.

(** What is sent to the client: a JSON object, or plain text. *)
Inductive sent : Type :=
| JSONResponse (status : Z) (content : dict)
| PlainTextResponse (status : Z) (text : string).

End Http.

Import Http.

(** ** Tracing and CORS objects: what the module constructs *)

Module Otel.

(** [OTLPSpanExporter(endpoint=...)]: the argument as the module
    passes it.  What the library's constructor makes of it (an empty
    argument falls back to the library's own defaults) is not modelled. *)
Record OTLPSpanExporter : Type := { endpoint : string }.

Record BatchSpanProcessor : Type := { span_exporter : OTLPSpanExporter }.

(** [Resource(attributes=...)] keeps exactly the attributes given. *)
Record Resource : Type := { attributes : gmap string string }.

Record TracerProvider : Type := {
  tp_resource : Resource;
  tp_span_processors : list BatchSpanProcessor
}.

Definition add_span_processor (sp : BatchSpanProcessor) (tp : TracerProvider) : TracerProvider :=
  {| tp_resource := tp_resource tp;
     tp_span_processors := (tp_span_processors tp ++ [sp])%list |}.

End Otel.

(** The layers wrapped around the route table, as they are configured.
    What a layer does to a request is the library's code, not the
    module's. *)
Inductive middleware : Type :=
| OpenTelemetryMiddleware
| CORSMiddleware (allow_origins : list string) (allow_credentials : bool)
                 (allow_methods allow_headers : list string).

(** ** The module [main] *)

Module Main.

Import Logging Otel.

(** The module's global names once its body has run. *)
Record globals : Type := {
  VERSION : string;
  log_dir : string;
  log_file : string;
  root : Logger;
  logger : Logger;
  resource : Resource;
  tracer_provider : TracerProvider;
  otlp_exporter : OTLPSpanExporter;
  span_processor : BatchSpanProcessor
}.

(** The logger named [api-backend] and its parent, the root logger. *)
Definition logger_chain (g : globals) : list Logger := [logger g; root g].

(** A path operation function reads the globals and writes to the log
    sinks; the clock reading used for the record's time stamp is an
    input. *)
Definition path_operation : Type := globals -> string -> sinks -> dict * sinks.

Record route : Type := {
  r_method : method;
  r_path : string;
  r_status_code : Z;
  r_endpoint : path_operation
}.

Record FastAPI : Type := {
  user_middleware : list middleware;
  routes : list route
}.

(** [FastAPI()].  The table holds the routes the module registers.
    The routes the framework registers itself ([/openapi.json], [/docs],
    [/docs/oauth2-redirect], [/redoc]) are not in it: they match neither
    of the module's paths, and the framework answers them. *)
Definition FastAPI0 : FastAPI := {| user_middleware := []; routes := [] |}.

(** [app.add_middleware(mw)]: the new layer becomes the outermost. *)
Definition add_middleware (mw : middleware) (a : FastAPI) : FastAPI :=
  {| user_middleware := mw :: user_middleware a; routes := routes a |}.

(** [FastAPIInstrumentor.instrument_app(app)]: adds the tracing layer. *)
Definition instrument_app (a : FastAPI) : FastAPI :=
  add_middleware OpenTelemetryMiddleware a.

(** [@app.get(path)]: a route for the method GET whose responses have
    the framework's default status code. *)
Definition get (path : string) (f : path_operation) (a : FastAPI) : FastAPI :=
  {| user_middleware := user_middleware a;
     routes := (routes a ++
                [{| r_method := GET; r_path := path; r_status_code := 200;
                    r_endpoint := f |}])%list |}.

(** *** The two handlers *)

Definition health_check : path_operation := fun g asctime out =>
  let out := info (logger_chain g) "/health called" [] asctime out in
  ([("status", "ok")], out).

Definition version : path_operation := fun g asctime out =>
  let out := info (logger_chain g) "/version called"
                  [("version", VERSION g)] asctime out in
  ([("version", VERSION g)], out).

(** *** The module body *)

(** What the process finds when it starts: the environment, the
    directory of [main.py], the files that exist, and the outcome of
    the two file-system calls the module body makes ([None]: the call
    succeeds). *)
Record world : Type := {
  w_environ : gmap string string;
  w_module_dir : string;
  w_files : gmap string (list string);
  w_mkdir : string -> option exn;
  w_open : string -> option exn
}.

(** The state of a started process. *)
Record proc : Type := {
  environ : gmap string string;
  g : globals;
  app : FastAPI;
  out : sinks
}.

(** [path.mkdir(exist_ok=True)]. *)
Definition mkdir (w : world) (path : string) : result unit :=
  match w_mkdir w path with
  | None => Ok tt
  | Some e => Raise e
  end.

(** [logging.FileHandler(path, encoding="utf-8")]: opens the file for
    appending when the handler is constructed, creating it when it
    does not exist. *)
Definition FileHandler (w : world) (path : string) (fs : gmap string (list string))
    : result (Handler * gmap string (list string)) :=
  match w_open w path with
  | None =>
      Ok ({| h_stream := FileStream path; h_level := NOTSET; h_formatter := None |},
          <[path := default [] (fs !! path)]> fs)
  | Some e => Raise e
  end.

Definition startup (w : world) : result proc :=
  let VERSION := getenv (w_environ w) "API_VERSION" "dev" in
  let app := FastAPI0 in
  let log_dir := path_join (w_module_dir w) "logs" in
  _ ← mkdir w log_dir;
  let log_file := path_join log_dir "api-backend.log" in
  let h1 := StreamHandler in
  '(h2, fs) ← FileHandler w log_file (w_files w);
  let root :=
    basicConfig INFO "%(asctime)s %(levelname)s [api-backend] %(message)s"
                [h1; h2] root0 in
  let logger := getLogger "api-backend" in
  let resource :=
    {| attributes := <["service.version" := VERSION]>
                       (<["service.name" := "api-backend"]> ∅) |} in
  let tracer_provider := {| tp_resource := resource; tp_span_processors := [] |} in
  let otlp_exporter :=
    {| endpoint := getenv (w_environ w) "OTEL_EXPORTER_OTLP_ENDPOINT"
                          "http://localhost:4318/v1/traces" |} in
  let span_processor := {| span_exporter := otlp_exporter |} in
  let tracer_provider := add_span_processor span_processor tracer_provider in
  let app := instrument_app app in
  let app := add_middleware (CORSMiddleware ["*"] true ["*"] ["*"]) app in
  let app := get "/health" health_check app in
  let app := get "/version" version app in
  Ok {| environ := w_environ w;
        g := {| VERSION := VERSION; log_dir := log_dir; log_file := log_file;
                root := root; logger := logger; resource := resource;
                tracer_provider := tracer_provider;
                otlp_exporter := otlp_exporter;
                span_processor := span_processor |};
        app := app;
        out := {| console := []; files := fs |} |}.

(** *** Serving *)

(** The first route of the module registered for exactly the request's
    path and method.  What the router does with other requests (a
    redirect for a trailing slash, 404, 405) is the framework's. *)
Fixpoint find_route (rs : list route) (req : request) : option route :=
  match rs with
  | [] => None
  | r :: rs' =>
      if decide (r_path r = req_path req ∧ r_method r = req_method req)
      then Some r else find_route rs' req
  end.

(** One request through the module's routes: the path operation runs
    and its dict is handed on with the route's status code; [respond]
    below renders it.  [None]: no path operation of the module runs,
    and the request is answered by the framework or by a layer around
    it (its own routes, a redirect, 404, 405, a CORS preflight). *)
Definition handle_request (asctime : string) (req : request) (p : proc)
    : option response * proc :=
  match find_route (routes (app p)) req with
  | Some r =>
      let '(d, out') := r_endpoint r (g p) asctime (out p) in
      (Some {| status_code := r_status_code r; body := d |},
       {| environ := environ p; g := g p; app := app p; out := out' |})
  | None => (None, p)
  end.

(** [JSONResponse.render(content)]: the JSON text encoded as UTF-8,
    which fails with [UnicodeEncodeError] ([None]) when a key or a value
    cannot be encoded. *)
Definition JSONResponse_render (content : dict) : option dict :=
  if forallb (fun kv => utf8_valid kv.1 && utf8_valid kv.2) content
  then Some content else None.

(** The response for what a route handed on: the JSON object with the
    route's status code, or, when rendering raises, the framework's
    answer to an unhandled exception. *)
Definition send (r : response) : sent :=
  match JSONResponse_render (body r) with
  | Some content => JSONResponse (status_code r) content
  | None => PlainTextResponse 500 "Internal Server Error"
  end.

(** One request, from the route table to the response sent. *)
Definition respond (asctime : string) (req : request) (p : proc)
    : option sent * proc :=
  let '(r, p') := handle_request asctime req p in (send <$> r, p').

(** What happens to a started process: its environment is changed, or
    a request arrives at some clock reading.  Only the module's own log
    calls write to the sinks here; records that libraries log on their
    own loggers reach the root handlers too and are not modelled. *)
Inductive event : Type :=
| Putenv (key value : string)
| Unsetenv (key : string)
| Request (asctime : string) (req : request).

Definition set_environ (env : gmap string string) (p : proc) : proc :=
  {| environ := env; g := g p; app := app p; out := out p |}.

Definition step (e : event) (p : proc) : option response * proc :=
  match e with
  | Putenv k v => (None, set_environ (<[k := v]> (environ p)) p)
  | Unsetenv k => (None, set_environ (delete k (environ p)) p)
  | Request asctime req => handle_request asctime req p
  end.

(** The process after a sequence of events. *)
Definition run (tr : list event) (p : proc) : proc :=
  foldl (fun p e => (step e p).2) p tr.

(** A whole process: start, then serve the events; the responses in
    order.  When the module body raises, nothing is served. *)
Fixpoint serve (tr : list event) (p : proc) : list (option response) :=
  match tr with
  | [] => []
  | e :: tr' => let '(r, p') := step e p in r :: serve tr' p'
  end.

Definition process (w : world) (tr : list event) : result (list (option response)) :=
  p ← startup w; Ok (serve tr p).

End Main.

Import Main Logging Otel.

(** ** Names for what the module body sets up *)

(** The format string passed to [logging.basicConfig]. *)
Definition log_format : string :=
  "%(asctime)s %(levelname)s [api-backend] %(message)s".

(** The line a handler configured with [log_format] writes for an INFO
    record: time stamp, level name, service tag, message. *)
Definition log_line (asctime msg : string) : string :=
  asctime +:+ " INFO [api-backend] " +:+ msg.

(** The lines of a file; a file that does not exist has none. *)
Definition file_lines (path : string) (o : sinks) : list string :=
  default [] (files o !! path).

Definition logs_path (w : world) : string := path_join (w_module_dir w) "logs".

Definition log_file_path (w : world) : string :=
  path_join (logs_path w) "api-backend.log".

(** The root logger after [logging.basicConfig] in the module body. *)
Definition configured_root (path : string) : Logger :=
  {| lg_name := "root"; lg_level := INFO;
     lg_handlers :=
       [ {| h_stream := Stderr; h_level := NOTSET; h_formatter := Some log_format |};
         {| h_stream := FileStream path; h_level := NOTSET;
            h_formatter := Some log_format |} ];
     lg_propagate := true |}.

(** The route table after the two decorators. *)
Definition main_routes : list route :=
  [ {| r_method := GET; r_path := "/health"; r_status_code := 200;
       r_endpoint := health_check |};
    {| r_method := GET; r_path := "/version"; r_status_code := 200;
       r_endpoint := version |} ].

Definition with_out (p : proc) (o : sinks) : proc :=
  {| environ := environ p; g := g p; app := app p; out := o |}.


(** What a successful run of the module body leaves behind. *)
Record started (w : world) (p : proc) : Prop := {
  st_mkdir : w_mkdir w (logs_path w) = None;
  st_open : w_open w (log_file_path w) = None;
  st_environ : environ p = w_environ w;
  st_VERSION : VERSION (g p) = getenv (w_environ w) "API_VERSION" "dev";
  st_log_file : log_file (g p) = log_file_path w;
  st_root : root (g p) = configured_root (log_file_path w);
  st_logger : logger (g p) = getLogger "api-backend";
  st_resource :
    attributes (resource (g p)) !! "service.version" = Some (VERSION (g p));
  st_provider : tp_resource (tracer_provider (g p)) = resource (g p);
  st_routes : routes (app p) = main_routes;
  st_middleware :
    user_middleware (app p) =
    [CORSMiddleware ["*"] true ["*"] ["*"]; OpenTelemetryMiddleware];
  st_console : console (out p) = [];
  st_files : files (out p) =
             <[log_file_path w := default [] (w_files w !! log_file_path w)]> (w_files w)
}.


(** ** Sample inputs *)

Module Samples.

(** A machine on which both file-system calls of the module body
    succeed. *)
Definition healthy_world (env : gmap string string) (dir : string) : world :=
  {| w_environ := env; w_module_dir := dir; w_files := ∅;
     w_mkdir := fun _ => None; w_open := fun _ => None |}.

Definition world_unset : world := healthy_world ∅ "/srv/api-backend".

Definition world_1_2_3 : world :=
  healthy_world {[ "API_VERSION" := "1.2.3" ]} "/srv/api-backend".





(** The [logs] directory cannot be created (errno 13, permission
    denied). *)
Definition world_readonly : world :=
  {| w_environ := ∅; w_module_dir := "/srv/api-backend"; w_files := ∅;
     w_mkdir := fun _ => Some (OSError 13); w_open := fun _ => None |}.

Definition health_req : request :=
  {| req_method := GET; req_path := "/health";
     req_query := [("verbose", "1")];
     req_headers := [("origin", "http://localhost:3000"); ("x-probe", "k8s")] |}.

Definition version_req : request :=
  {| req_method := GET; req_path := "/version"; req_query := [];
     req_headers := [("accept", "*/*")] |}.

Definition noon : string := "2024-01-01 12:00:00,000".

Definition some_traffic : list event :=
  [ Request "2024-01-01 11:59:58,120" health_req;
    Putenv "API_VERSION" "9.9.9";
    Request "2024-01-01 11:59:59,407" version_req;
    Unsetenv "API_VERSION" ].

End Samples.

(** ** Supporting lemmas *)

Section Formatting.

Lemma tokenize_log_format :
  tokenize (InLit "") log_format =
  Some [Lit ""; Attr "asctime"; Lit " "; Attr "levelname";
        Lit " [api-backend] "; Attr "message"; Lit ""].
Proof. vm_compute. reflexivity. Qed.

Lemma record_attr_asctime r : record_attr r "asctime" = Some (rec_asctime r).
Proof. reflexivity. Qed.

Lemma record_attr_levelname r :
  record_attr r "levelname" = Some (getLevelName (rec_levelno r)).
Proof. reflexivity. Qed.

Lemma record_attr_message r : record_attr r "message" = Some (rec_msg r).
Proof. reflexivity. Qed.

Lemma append_empty_r (s : string) : s +:+ "" = s.
Proof.
  induction s as [|c s IH]; [reflexivity|].
  change (String c s +:+ "") with (String c (s +:+ "")). now rewrite IH.
Qed.

(** The configured format renders an INFO record as [log_line]: the
    record's [extra] attributes are not part of it. *)
Lemma format_log_line r :
  rec_levelno r = INFO ->
  format log_format r = Some (log_line (rec_asctime r) (rec_msg r)).
Proof.
  intros H. unfold format. rewrite tokenize_log_format.
  cbn [render].
  rewrite record_attr_asctime, record_attr_levelname, record_attr_message, H.
  cbn [fmap option_fmap option_map render].
  change ("" +:+ "") with "". rewrite append_empty_r. reflexivity.
Qed.

End Formatting.

Section Startup.

Lemma startup_Ok w p : startup w = Ok p -> started w p.
Proof.
  unfold startup, mkdir, FileHandler, mbind, result_bind.
  fold (logs_path w). fold (log_file_path w).
  destruct (w_mkdir w (logs_path w)) eqn:Hm; [discriminate|].
  destruct (w_open w (log_file_path w)) eqn:Ho; [discriminate|].
  intros [= <-]. split; try reflexivity; assumption.
Qed.

Lemma startup_mkdir_fails w e :
  w_mkdir w (logs_path w) = Some e -> startup w = Raise e.
Proof.
  intros H. unfold startup, mkdir, mbind, result_bind.
  fold (logs_path w). now rewrite H.
Qed.

Lemma startup_open_fails w e :
  w_mkdir w (logs_path w) = None -> w_open w (log_file_path w) = Some e ->
  startup w = Raise e.
Proof.
  intros Hm Ho. unfold startup, mkdir, FileHandler, mbind, result_bind.
  fold (logs_path w). fold (log_file_path w). now rewrite Hm, Ho.
Qed.

(** A started process has both handlers on the root logger: the
    console stream and the log file. *)
Lemma started_has_both_sinks w p :
  startup w = Ok p ->
  h_stream <$> lg_handlers (root (g p)) = [Stderr; FileStream (log_file (g p))].
Proof.
  intros H. destruct (startup_Ok _ _ H) as [_ _ _ _ Hf Hr _ _ _ _ _ _ _].
  now rewrite Hr, Hf.
Qed.

End Startup.

Section Serving.

(** One [logger.info] call on the configured loggers writes the same
    line to the console stream and to the log file, and nothing else. *)
Lemma info_writes_line gl path msg extra asctime o :
  root gl = configured_root path -> logger gl = getLogger "api-backend" ->
  info (logger_chain gl) msg extra asctime o =
  write_line (FileStream path) (log_line asctime msg)
    (write_line Stderr (log_line asctime msg) o).
Proof.
  intros Hr Hl. unfold info, log, logger_chain. rewrite Hr, Hl.
  unfold callHandlers.
  cbn [getEffectiveLevel getLogger configured_root lg_level lg_name
       lg_handlers lg_propagate call_chain foldl rec_levelno h_level
       length Nat.add].
  rewrite (decide_True (P := NOTSET = NOTSET)) by reflexivity.
  rewrite (decide_False (P := INFO = NOTSET)) by discriminate.
  rewrite !decide_True by (unfold NOTSET, INFO; lia).
  unfold handle. cbn [h_formatter h_stream default].
  rewrite !format_log_line by reflexivity. reflexivity.
Qed.

Lemma find_route_health req :
  req_method req = GET -> req_path req = "/health" ->
  find_route main_routes req =
  Some {| r_method := GET; r_path := "/health"; r_status_code := 200;
          r_endpoint := health_check |}.
Proof.
  intros Hm Hp. unfold main_routes. cbn [find_route r_path r_method].
  rewrite Hm, Hp. now rewrite decide_True.
Qed.

Lemma find_route_version req :
  req_method req = GET -> req_path req = "/version" ->
  find_route main_routes req =
  Some {| r_method := GET; r_path := "/version"; r_status_code := 200;
          r_endpoint := version |}.
Proof.
  intros Hm Hp. unfold main_routes. cbn [find_route r_path r_method].
  rewrite Hm, Hp. rewrite decide_False by (intros [? _]; discriminate).
  now rewrite decide_True.
Qed.

Lemma handle_request_health asctime req p :
  routes (app p) = main_routes ->
  req_method req = GET -> req_path req = "/health" ->
  handle_request asctime req p =
  (Some {| status_code := 200; body := [("status", "ok")] |},
   with_out p (info (logger_chain (g p)) "/health called" [] asctime (out p))).
Proof.
  intros Hr Hm Hp. unfold handle_request.
  rewrite Hr, (find_route_health _ Hm Hp). reflexivity.
Qed.

Lemma handle_request_version asctime req p :
  routes (app p) = main_routes ->
  req_method req = GET -> req_path req = "/version" ->
  handle_request asctime req p =
  (Some {| status_code := 200; body := [("version", VERSION (g p))] |},
   with_out p (info (logger_chain (g p)) "/version called"
                    [("version", VERSION (g p))] asctime (out p))).
Proof.
  intros Hr Hm Hp. unfold handle_request.
  rewrite Hr, (find_route_version _ Hm Hp). reflexivity.
Qed.

(** No event rebinds a global or touches the route table. *)
Lemma step_globals e p : g (step e p).2 = g p /\ app (step e p).2 = app p.
Proof.
  destruct e as [k v|k|t req]; cbn; try (split; reflexivity).
  unfold handle_request. destruct (find_route _ _) as [r|]; [|split; reflexivity].
  destruct (r_endpoint r (g p) t (out p)). split; reflexivity.
Qed.

Lemma run_globals tr p : g (run tr p) = g p /\ app (run tr p) = app p.
Proof.
  revert p. induction tr as [|e tr IH]; intros p; [split; reflexivity|].
  change (run (e :: tr) p) with (run tr (step e p).2).
  destruct (IH (step e p).2) as [-> ->]. apply step_globals.
Qed.

(** The response to a request is a function of the request, the route
    table and [VERSION]. *)
Lemma response_from_globals t1 t2 req p1 p2 :
  routes (app p1) = main_routes -> routes (app p2) = main_routes ->
  VERSION (g p1) = VERSION (g p2) ->
  (handle_request t1 req p1).1 = (handle_request t2 req p2).1.
Proof.
  intros H1 H2 Hv. unfold handle_request. rewrite H1, H2.
  unfold main_routes. cbn [find_route r_path r_method].
  repeat case_decide; cbn; rewrite ?Hv; reflexivity.
Qed.

End Serving.

(** Facts about a process that started on [w] and then lived through
    the events [tr]. *)
Section Running.

Variables (w : world) (p0 : proc).
Hypothesis Hstart : startup w = Ok p0.
Variable tr : list event.

Lemma running_routes : routes (app (run tr p0)) = main_routes.
Proof.
  destruct (run_globals tr p0) as [_ ->]. apply (st_routes _ _ (startup_Ok _ _ Hstart)).
Qed.

Lemma running_VERSION :
  VERSION (g (run tr p0)) = getenv (w_environ w) "API_VERSION" "dev".
Proof.
  destruct (run_globals tr p0) as [-> _]. apply (st_VERSION _ _ (startup_Ok _ _ Hstart)).
Qed.

Lemma running_root : root (g (run tr p0)) = configured_root (log_file_path w).
Proof.
  destruct (run_globals tr p0) as [-> _]. apply (st_root _ _ (startup_Ok _ _ Hstart)).
Qed.

Lemma running_logger : logger (g (run tr p0)) = getLogger "api-backend".
Proof.
  destruct (run_globals tr p0) as [-> _]. apply (st_logger _ _ (startup_Ok _ _ Hstart)).
Qed.

(** What a handler's [logger.info] call does to the sinks of the running
    process. *)
Lemma running_info msg extra asctime :
  info (logger_chain (g (run tr p0))) msg extra asctime (out (run tr p0)) =
  write_line (FileStream (log_file_path w)) (log_line asctime msg)
    (write_line Stderr (log_line asctime msg) (out (run tr p0))).
Proof. apply info_writes_line; [apply running_root | apply running_logger]. Qed.

Lemma running_health asctime req :
  req_method req = GET -> req_path req = "/health" ->
  handle_request asctime req (run tr p0) =
  (Some {| status_code := 200; body := [("status", "ok")] |},
   with_out (run tr p0)
     (write_line (FileStream (log_file_path w)) (log_line asctime "/health called")
        (write_line Stderr (log_line asctime "/health called") (out (run tr p0))))).
Proof.
  intros Hm Hp.
  rewrite (handle_request_health _ _ _ running_routes Hm Hp).
  now rewrite running_info.
Qed.

Lemma running_version asctime req :
  req_method req = GET -> req_path req = "/version" ->
  handle_request asctime req (run tr p0) =
  (Some {| status_code := 200;
           body := [("version", getenv (w_environ w) "API_VERSION" "dev")] |},
   with_out (run tr p0)
     (write_line (FileStream (log_file_path w)) (log_line asctime "/version called")
        (write_line Stderr (log_line asctime "/version called") (out (run tr p0))))).
Proof.
  intros Hm Hp.
  rewrite (handle_request_version _ _ _ running_routes Hm Hp).
  now rewrite running_info, running_VERSION.
Qed.

End Running.




(** ** Rendering the response *)




(** [GET /health] is sent as it is handed on: its body always encodes. *)
Lemma respond_health w p0 tr asctime req :
  startup w = Ok p0 ->
  req_method req = GET -> req_path req = "/health" ->
  (respond asctime req (run tr p0)).1 = Some (JSONResponse 200 [("status", "ok")]).
Proof.
  intros Hs Hm Hp. unfold respond.
  now rewrite (running_health w p0 Hs tr asctime req Hm Hp).
Qed.

(** The response sent, like what the route hands on, is a function of
    the request, the route table and [VERSION]. *)
Lemma sent_from_globals t1 t2 req p1 p2 :
  routes (app p1) = main_routes -> routes (app p2) = main_routes ->
  VERSION (g p1) = VERSION (g p2) ->
  (respond t1 req p1).1 = (respond t2 req p2).1.
Proof.
  intros H1 H2 Hv. pose proof (response_from_globals t1 t2 req p1 p2 H1 H2 Hv) as E.
  unfold respond.
  destruct (handle_request t1 req p1) as [r1 q1].
  destruct (handle_request t2 req p2) as [r2 q2].
  cbn [fst] in *. now rewrite E.
Qed.

(** ** The endpoints *)

(** C1.  Every GET request to [/health], whatever its query parameters
    and headers and whatever happened to the process before, is answered
    with status 200 and the body [{"status": "ok"}]. *)
Theorem health_check_returns_ok w p0 tr asctime req :
  startup w = Ok p0 ->
  req_method req = GET -> req_path req = "/health" ->
  (handle_request asctime req (run tr p0)).1 =
  Some {| status_code := 200; body := [("status", "ok")] |}.
Proof.
  intros Hs Hm Hp. now rewrite (running_health w p0 Hs tr asctime req Hm Hp).
Qed.

Lemma health_check_returns_ok_witness :
  exists p0,
    startup Samples.world_unset = Ok p0 /\
    req_method Samples.health_req = GET /\
    req_path Samples.health_req = "/health" /\
    (handle_request Samples.noon Samples.health_req
       (run Samples.some_traffic p0)).1 =
    Some {| status_code := 200; body := [("status", "ok")] |}.
Proof.
  eexists. split; [reflexivity|]. split; [reflexivity|]. split; [reflexivity|].
  apply (health_check_returns_ok Samples.world_unset); reflexivity.
Defined.




(** ** Logging *)

(** C4, at the input [API_VERSION=1.2.3].  The handler of [/version]
    emits one INFO record and answers with the version, but the line
    rendered for that record is
    [<time> INFO [api-backend] /version called]: the version, passed as
    [extra], is no part of the rendered text. *)
Theorem version_log_line_omits_version :
  exists p0,
    startup Samples.world_1_2_3 = Ok p0 /\
    let '(r, p) := handle_request Samples.noon Samples.version_req p0 in
    r = Some {| status_code := 200; body := [("version", "1.2.3")] |} /\
    console (out p) =
      ["2024-01-01 12:00:00,000 INFO [api-backend] /version called"] /\
    file_lines (log_file (g p0)) (out p) =
      ["2024-01-01 12:00:00,000 INFO [api-backend] /version called"] /\
    contains "1.2.3"
      "2024-01-01 12:00:00,000 INFO [api-backend] /version called" = false.
Proof.
  eexists. split; [reflexivity|]. vm_compute. repeat split; reflexivity.
Qed.

(** The line written for a [/version] request is the same for every
    version string: it is made of the clock reading and fixed text. *)
Lemma version_log_line_independent w p0 tr asctime req :
  startup w = Ok p0 ->
  req_method req = GET -> req_path req = "/version" ->
  console (out (handle_request asctime req (run tr p0)).2) =
  (console (out (run tr p0)) ++ [log_line asctime "/version called"])%list.
Proof.
  intros Hs Hm Hp. now rewrite (running_version w p0 Hs tr asctime req Hm Hp).
Qed.



(** ** The version is read once *)




(** ** Start-up failures *)

(** C7.  When the [logs] directory cannot be created, or it can but the
    log file cannot be opened, the module body raises that error: the
    process serves nothing, whatever requests arrive. *)
Theorem log_setup_failure_is_fatal w e tr :
  w_mkdir w (logs_path w) = Some e \/
  (w_mkdir w (logs_path w) = None /\ w_open w (log_file_path w) = Some e) ->
  startup w = Raise e /\ process w tr = Raise e.
Proof.
  intros H.
  assert (Hs : startup w = Raise e).
  { destruct H as [Hm|[Hm Ho]];
      [apply startup_mkdir_fails | apply startup_open_fails]; assumption. }
  split; [exact Hs|]. unfold process. now rewrite Hs.
Qed.

Lemma log_setup_failure_is_fatal_witness :
  (w_mkdir Samples.world_readonly (logs_path Samples.world_readonly)
     = Some (OSError 13) \/
   (w_mkdir Samples.world_readonly (logs_path Samples.world_readonly) = None /\
    w_open Samples.world_readonly (log_file_path Samples.world_readonly)
      = Some (OSError 13))) /\
  startup Samples.world_readonly = Raise (OSError 13) /\
  process Samples.world_readonly Samples.some_traffic = Raise (OSError 13).
Proof.
  split; [left; reflexivity|].
  apply (log_setup_failure_is_fatal Samples.world_readonly). left; reflexivity.
Defined.

(** ** Tracing *)





(** ** Determinism *)



(** * Further properties of the module *)


(** ** The logging threshold *)



(** ** A version that cannot be encoded *)


